(** * qiskit-ibm-runtime: the fake Yorktown descriptors and the service facade

    A shallow embedding of

    - [qiskit_ibm_runtime/fake_provider/backends/yorktown/fake_yorktown.py]:
      the two descriptor classes [FakeYorktownV2] and [FakeYorktown];
    - [qiskit_ibm_runtime/qiskit_runtime_service.py]: the class
      [QiskitRuntimeService] with its class attribute [global_service] and its
      constructor [__init__].

    Python objects live in a store; a method is a function from the store to
    an outcome (a normal return or a raised exception, each with the store it
    leaves behind).  The constructor of the superclass
    [FakeProviderForBackendV2] is defined in another module: it is a variable
    of the development, of the type of an arbitrary Python callable. *)

From Stdlib Require Import ZArith String List.
From stdpp Require Import base option list gmap strings.

Local Open Scope string_scope.

(** ** Python values, objects and the store *)

Module Py.

(** Addresses of heap objects. *)
Definition loc := positive.

(** The values the constructor's parameters range over
    ([Optional[str]], [Optional[bool]], [Optional[dict]], ...); a [dict] or
    any other object is a reference into the heap. *)
Inductive value : Type :=
| VNone
| VBool (b : bool)
| VInt (z : Z)
| VStr (s : string)
| VRef (l : loc).

#[global] Instance value_eq_dec : EqDecision value.
Proof. solve_decision. Defined.

#[global] Instance value_inhabited : Inhabited value := populate VNone.

(** A raised exception: its class and its message. *)
Record exn : Type := Exn { exn_class : string; exn_msg : string }.

(** The store: every instance is its attribute dictionary ([__dict__]);
    every class is its namespace, filed under the class name.  The class of
    an instance is not recorded: every call in the two modules is resolved
    by the class named at the call site. *)
Record world : Type := World {
  heap : gmap loc (gmap string value);
  classes : gmap string (gmap string value)
}.

Definition empty_world : world := World ∅ ∅.

(** How a call ends. *)
Inductive outcome (A : Type) : Type :=
| Returned (a : A) (w : world)
| Raised (e : exn) (w : world).
Arguments Returned {A} a w.
Arguments Raised {A} e w.

Definition world_of {A} (o : outcome A) : world :=
  match o with Returned _ w => w | Raised _ w => w end.

Definition raised_by {A} (o : outcome A) : option exn :=
  match o with Returned _ _ => None | Raised e _ => Some e end.

(** Store-passing computations that may raise. *)
Definition M (A : Type) : Type := world -> outcome A.

Definition ret {A} (a : A) : M A := fun w => Returned a w.

Definition raise {A} (e : exn) : M A := fun w => Raised e w.

Definition bind {A B} (m : M A) (k : A -> M B) : M B :=
  fun w => match m w with
           | Returned a w' => k a w'
           | Raised e w' => Raised e w'
           end.

#[global] Instance M_ret : MRet M := @ret.
#[global] Instance M_bind : MBind M := fun A B k m => bind m k.

(** A Python callable seen from its call site: the receiver, the positional
    arguments and the keyword arguments. *)
Definition method : Type := loc -> list value -> gmap string value -> M unit.

(** [object.__new__]: a fresh instance with an empty [__dict__]. *)
Definition new_object : M loc :=
  fun w =>
    let l := fresh (dom (heap w)) in
    Returned l (World (<[l := ∅]> (heap w)) (classes w)).

(** [obj.name = v] on an instance. *)
Definition setattr (l : loc) (name : string) (v : value) : M unit :=
  fun w =>
    Returned tt (World (alter (insert name v) l (heap w)) (classes w)).

(** A class statement: the body is a sequence of assignments run in order
    in a fresh namespace, a later assignment to a name replacing an
    earlier one. *)
Record class_def : Type := ClassDef {
  cls_name : string;
  cls_bases : list string;
  cls_body : list (string * value)
}.

Definition namespace_of (body : list (string * value)) : gmap string value :=
  foldl (fun ns kv => <[kv.1 := kv.2]> ns) ∅ body.

(** Executing the class statement binds the namespace to the class name. *)
Definition declare (c : class_def) (w : world) : world :=
  World (heap w) (<[cls_name c := namespace_of (cls_body c)]> (classes w)).

(** [C.name] for an attribute found in the class's own namespace. *)
Definition class_attr (w : world) (c name : string) : option value :=
  classes w !! c ≫= fun ns => ns !! name.

End Py.


(** ** [fake_yorktown.py]: the fake 5 qubit Yorktown device *)

Module fake_yorktown.
Import Py.

Section module.

(** The module's own path, [__file__], and [os.path.dirname] of the
    Python standard library. *)
Variable __file__ : string.
Variable os_path_dirname : string -> string.

(** [class FakeYorktownV2(fake_backend.FakeBackendV2)] *)
Definition FakeYorktownV2 : class_def := {|
  cls_name := "FakeYorktownV2";
  cls_bases := ["fake_backend.FakeBackendV2"];
  cls_body := [
    ("dirname", VStr (os_path_dirname __file__));
    ("conf_filename", VStr "conf_yorktown.json");
    ("props_filename", VStr "props_yorktown.json");
    ("backend_name", VStr "ibm_yorktown")
  ]
|}.

(** [class FakeYorktown(fake_qasm_backend.FakeQasmBackend)] *)
Definition FakeYorktown : class_def := {|
  cls_name := "FakeYorktown";
  cls_bases := ["fake_qasm_backend.FakeQasmBackend"];
  cls_body := [
    ("dirname", VStr (os_path_dirname __file__));
    ("conf_filename", VStr "conf_yorktown.json");
    ("props_filename", VStr "props_yorktown.json");
    ("backend_name", VStr "ibm_yorktown")
  ]
|}.

(** The two class statements of the module, run in order: what the import
    adds to the classes of the store.  The import statements above them
    bind names of other modules and are not modelled. *)
Definition exec_module (w : world) : world :=
  declare FakeYorktown (declare FakeYorktownV2 w).

End module.

(** The names of the descriptor data a loader reads. *)
Definition descriptor_attrs : list string :=
  ["dirname"; "conf_filename"; "props_filename"; "backend_name"].

(** The names of the two descriptor classes. *)
Definition descriptor_classes : list string :=
  ["FakeYorktownV2"; "FakeYorktown"].

End fake_yorktown.

(** ** [qiskit_runtime_service.py]: the service facade *)

Module qiskit_runtime_service.
Import Py.

Definition SERVICE_NAME : string := "runtime".

(** The nine parameters of the constructor after [self], in the order of
    the signature; each has the default [None]. *)
Definition parameters : list string :=
  ["channel"; "token"; "url"; "filename"; "name"; "instance"; "proxies";
   "verify"; "channel_strategy"].

(** The arguments as the body of the constructor sees them. *)
Record init_args : Type := InitArgs {
  channel : value;
  token : value;
  url : value;
  filename : value;
  name : value;
  instance : value;
  proxies : value;
  verify : value;
  channel_strategy : value
}.

Definition values_of (a : init_args) : list value :=
  [channel a; token a; url a; filename a; name a; instance a; proxies a;
   verify a; channel_strategy a].

Definition TypeError (msg : string) : exn := Exn "TypeError" msg.

(** Python's binding of a call of [QiskitRuntimeService] with positional
    arguments [pos] and keyword arguments [kw] to the signature: at most nine positional arguments, every keyword one of the
    nine names and not already given by position, [None] for a parameter
    the call leaves out. *)
Definition bind_arguments (pos : list value) (kw : gmap string value)
  : exn + init_args :=
  if decide (length parameters < length pos) then
    inl (TypeError "__init__() takes from 1 to 10 positional arguments")
  else if decide (dom kw ⊆ list_to_set parameters) then
    if decide (Forall (fun p => kw !! p = None)
                      (take (length pos) parameters)) then
      let arg (i : nat) (p : string) : value :=
        match pos !! i with
        | Some v => v
        | None => default VNone (kw !! p)
        end in
      inr {| channel := arg 0 "channel";
             token := arg 1 "token";
             url := arg 2 "url";
             filename := arg 3 "filename";
             name := arg 4 "name";
             instance := arg 5 "instance";
             proxies := arg 6 "proxies";
             verify := arg 7 "verify";
             channel_strategy := arg 8 "channel_strategy" |}
    else inl (TypeError "__init__() got multiple values for argument")
  else inl (TypeError "__init__() got an unexpected keyword argument").

Definition lift {A} (r : exn + A) : M A :=
  match r with inl e => raise e | inr a => ret a end.

Section QiskitRuntimeService.

(** [FakeProviderForBackendV2.__init__], imported from [.fake_provider]. *)
Variable FakeProviderForBackendV2__init__ : method.

(** The class statement: [global_service = None] and [def __init__]; the
    namespace below holds the data attribute, the method is [__init__]. *)
Definition global_service : value := VNone.

Definition QiskitRuntimeService : class_def := {|
  cls_name := "QiskitRuntimeService";
  cls_bases := ["FakeProviderForBackendV2"];
  cls_body := [("global_service", global_service)]
|}.

(** [def __init__(self, channel=None, ..., channel_strategy=None)]: the
    body is the single statement [super().__init__()], which for an instance
    of this class is [FakeProviderForBackendV2.__init__] called on [self]
    with no further argument. *)
Definition __init__ (self : loc)
    (channel token url filename name instance proxies verify
       channel_strategy : value) : M unit :=
  FakeProviderForBackendV2__init__ self [] ∅.

Definition init_with (self : loc) (a : init_args) : M unit :=
  __init__ self (channel a) (token a) (url a) (filename a) (name a)
    (instance a) (proxies a) (verify a) (channel_strategy a).

(** A call of the class [QiskitRuntimeService]: allocate the instance,
    bind the arguments, run [__init__], hand out the instance. *)
Definition construct (pos : list value) (kw : gmap string value) : M value :=
  self ← new_object;
  a ← lift (bind_arguments pos kw);
  _ ← init_with self a;
  mret (VRef self).

(** The same with the arguments already bound. *)
Definition construct_with (a : init_args) : M value :=
  self ← new_object;
  _ ← init_with self a;
  mret (VRef self).

(** A call of the superclass [FakeProviderForBackendV2] itself. *)
Definition construct_super (pos : list value) (kw : gmap string value)
  : M value :=
  self ← new_object;
  _ ← FakeProviderForBackendV2__init__ self pos kw;
  mret (VRef self).

(** The class statement of the module: what the import adds to the
    classes of the store.  The import statements, the logger and the
    constant above it are not modelled. *)
Definition exec_module (w : world) : world := declare QiskitRuntimeService w.

(** One instance after the other, each with its own arguments; an
    exception ends that construction only.  The references are dropped;
    the store of the model releases no object. *)
Fixpoint construct_all (calls : list init_args) (w : world) : world :=
  match calls with
  | [] => w
  | a :: calls' => construct_all calls' (world_of (construct_with a w))
  end.

End QiskitRuntimeService.

(** What a callable finds among the arguments it receives. *)
Definition received (v : value) (pos : list value) (kw : gmap string value)
  : Prop :=
  v ∈ pos ∨ v ∈ (map_to_list kw).*2.

#[global] Instance received_dec v pos kw : Decision (received v pos kw).
Proof. unfold received. apply _. Defined.

(** The values a call supplies: those that are not the default [None]. *)
Definition supplied (a : init_args) : list value :=
  filter (fun v => v ≠ VNone) (values_of a).

(** "[__init__] forwards its arguments": the one call it makes to the
    superclass constructor carries arguments [pos'], [kw'] among which every
    supplied value is found. *)
Definition forwards_arguments (self : loc) (a : init_args) : Prop :=
  ∃ pos' kw',
    (∀ super w, init_with super self a w = super self pos' kw' w) ∧
    Forall (fun v => received v pos' kw') (supplied a).

(** A callable that, called without arguments, leaves the attribute [n] of
    the class [c] as it found it. *)
Definition keeps_class_attr (m : method) (c n : string) : Prop :=
  ∀ self w, class_attr (world_of (m self [] ∅ w)) c n = class_attr w c n.

(** A superclass constructor of the kind the facade is written for, used as
    a test instance: [def __init__(self)] takes no argument besides [self]
    and stores a fresh container of backends on the instance. *)
Definition example_super_init : method :=
  fun self pos kw =>
    if decide (pos = [] ∧ kw = ∅) then
      backends ← new_object;
      setattr self "_backends" (VRef backends)
    else raise (TypeError "__init__() takes 1 positional argument").

(** A call that supplies a channel by position and a token by keyword. *)
Definition example_pos : list value := [VStr "ibm_quantum"].
Definition example_kw : gmap string value := {["token" := VStr "MY_API_TOKEN"]}.
Definition example_args : init_args := {|
  channel := VStr "ibm_quantum";
  token := VStr "MY_API_TOKEN";
  url := VNone;
  filename := VNone;
  name := VNone;
  instance := VNone;
  proxies := VNone;
  verify := VNone;
  channel_strategy := VNone
|}.

(** The call without arguments binds every parameter to its default. *)
Definition default_args : init_args :=
  InitArgs VNone VNone VNone VNone VNone VNone VNone VNone VNone.

(** The call that gives the first [k] of the nine values by position and the
    others by keyword, each under the name of its parameter. *)
Definition mixed_pos (k : nat) (a : init_args) : list value :=
  take k (values_of a).

Definition mixed_kw (k : nat) (a : init_args) : gmap string value :=
  list_to_map (drop k (zip parameters (values_of a))).

(** The three ways a call can miss the signature: more positional arguments
    than parameters, a keyword that names no parameter, a keyword for a
    parameter already given by position. *)
Definition malformed (pos : list value) (kw : gmap string value) : Prop :=
  length parameters < length pos ∨
  (∃ k, is_Some (kw !! k) ∧ k ∉ parameters) ∨
  (∃ i p, parameters !! i = Some p ∧ i < length pos ∧ is_Some (kw !! p)).

(** A callable that, called without arguments, frees no object. *)
Definition keeps_objects (m : method) : Prop :=
  ∀ self w, dom (heap w) ⊆ dom (heap (world_of (m self [] ∅ w))).

End qiskit_runtime_service.

(** ** Facts about the store *)

Module PyFacts.
Import Py.

Lemma class_attr_declare_eq c w n :
  class_attr (declare c w) (cls_name c) n = namespace_of (cls_body c) !! n.
Proof. unfold class_attr, declare; simpl. by rewrite lookup_insert_eq. Qed.

Lemma class_attr_declare_ne c w k n :
  cls_name c ≠ k → class_attr (declare c w) k n = class_attr w k n.
Proof.
  intros Hne. unfold class_attr, declare; simpl. by rewrite lookup_insert_ne.
Qed.

End PyFacts.

(** ** The descriptors of [fake_yorktown.py] *)

Module fake_yorktown_spec.
Import Py PyFacts fake_yorktown.

Section descriptors.
Variable __file__ : string.
Variable os_path_dirname : string → string.

Local Abbreviation V2 := (FakeYorktownV2 __file__ os_path_dirname).
Local Abbreviation V1 := (FakeYorktown __file__ os_path_dirname).
Local Abbreviation imported := (exec_module __file__ os_path_dirname).

(** After the import, each class name is bound to the namespace its own
    class statement built. *)
Lemma imported_FakeYorktownV2 w n :
  class_attr (imported w) "FakeYorktownV2" n = namespace_of (cls_body V2) !! n.
Proof.
  unfold exec_module.
  rewrite class_attr_declare_ne by done.
  apply (class_attr_declare_eq (FakeYorktownV2 __file__ os_path_dirname)).
Qed.

Lemma imported_FakeYorktown w n :
  class_attr (imported w) "FakeYorktown" n = namespace_of (cls_body V1) !! n.
Proof.
  unfold exec_module.
  apply (class_attr_declare_eq (FakeYorktown __file__ os_path_dirname)).
Qed.

(** The namespace a class statement builds holds the four names and no
    other. *)
Lemma namespace_dom :
  dom (namespace_of (cls_body V2)) = list_to_set descriptor_attrs.
Proof.
  unfold namespace_of, descriptor_attrs; simpl.
  rewrite !dom_insert_L, dom_empty_L. set_solver.
Qed.

(** C5: for each of the two descriptor classes the declared backend name,
    as a loader reads it from the class after the import, is the string
    "ibm_yorktown", whatever the module path and the store the import
    started from; and that string is not empty. *)
Theorem backend_name_declared w :
  class_attr (imported w) "FakeYorktownV2" "backend_name"
    = Some (VStr "ibm_yorktown") ∧
  class_attr (imported w) "FakeYorktown" "backend_name"
    = Some (VStr "ibm_yorktown") ∧
  "ibm_yorktown" ≠ "" ∧ 0 < String.length "ibm_yorktown".
Proof.
  rewrite imported_FakeYorktownV2, imported_FakeYorktown.
  repeat split; try reflexivity; try discriminate.
  simpl. lia.
Qed.

(** C6: the two descriptor classes declare pairwise equal attributes: the
    two class bodies are the same assignments, the two class names are
    bound to equal namespaces, which hold exactly
    dirname, conf_filename, props_filename and backend_name, so each of
    the four reads the same from either class. *)
Theorem descriptors_agree w :
  cls_body V2 = cls_body V1 ∧
  classes (imported w) !! "FakeYorktownV2"
    = classes (imported w) !! "FakeYorktown" ∧
  dom (namespace_of (cls_body V2)) = list_to_set descriptor_attrs ∧
  Forall (fun n =>
            is_Some (class_attr (imported w) "FakeYorktownV2" n) ∧
            class_attr (imported w) "FakeYorktownV2" n
              = class_attr (imported w) "FakeYorktown" n)
         descriptor_attrs.
Proof.
  split; [reflexivity|]. split; [|split].
  - unfold exec_module, declare; simpl.
    rewrite lookup_insert_eq, lookup_insert_ne by done.
    by rewrite lookup_insert_eq.
  - apply namespace_dom.
  - unfold descriptor_attrs.
    repeat (apply Forall_cons; split;
            [rewrite imported_FakeYorktownV2, imported_FakeYorktown;
             split; [eexists|]; reflexivity|]).
    apply Forall_nil_2.
Qed.

End descriptors.
End fake_yorktown_spec.

(** ** The constructor of [QiskitRuntimeService] *)

Module qiskit_runtime_service_spec.
Import Py PyFacts qiskit_runtime_service.

(** Binding. *)

Lemma bind_arguments_none : bind_arguments [] ∅ = inr default_args.
Proof. reflexivity. Qed.

Lemma bind_arguments_positional a : bind_arguments (values_of a) ∅ = inr a.
Proof. destruct a. reflexivity. Qed.

Section facade.
Variable super : method.

(** The instance a construction allocates and the store it is initialised
    in. *)
Local Abbreviation self_of w := (fresh (dom (heap w))).
Local Abbreviation allocated w := (world_of (new_object w)).

Lemma init_with_super self a w :
  init_with super self a w = super self [] ∅ w.
Proof. reflexivity. Qed.

Lemma construct_with_super a w :
  construct_with super a w = construct_super super [] ∅ w.
Proof. reflexivity. Qed.

Lemma construct_with_outcome a w :
  construct_with super a w =
    match super (self_of w) [] ∅ (allocated w) with
    | Returned _ w1 => Returned (VRef (self_of w)) w1
    | Raised e w1 => Raised e w1
    end.
Proof.
  unfold construct_with, init_with, __init__, mbind, M_bind, bind. simpl.
  destruct (super _ _ _ _); reflexivity.
Qed.

Lemma construct_bound pos kw a w :
  bind_arguments pos kw = inr a →
  construct super pos kw w = construct_with super a w.
Proof.
  intros Hb. unfold construct, construct_with, mbind, M_bind, bind. simpl.
  rewrite Hb. reflexivity.
Qed.

Lemma construct_unbound pos kw e w :
  bind_arguments pos kw = inl e →
  construct super pos kw w = Raised e (allocated w).
Proof.
  intros Hb. unfold construct, mbind, M_bind, bind. simpl.
  rewrite Hb. reflexivity.
Qed.

Lemma world_of_construct_with a w :
  world_of (construct_with super a w)
    = world_of (super (self_of w) [] ∅ (allocated w)).
Proof. rewrite construct_with_outcome. destruct (super _ _ _ _); reflexivity. Qed.

(** A class attribute the superclass constructor keeps is kept by one
    construction, and so by any number of them. *)
Lemma construct_with_keeps c n a w :
  keeps_class_attr super c n →
  class_attr (world_of (construct_with super a w)) c n = class_attr w c n.
Proof.
  intros Hkeep. rewrite world_of_construct_with, Hkeep. reflexivity.
Qed.

Lemma construct_all_keeps c n calls :
  keeps_class_attr super c n →
  ∀ w, class_attr (construct_all super calls w) c n = class_attr w c n.
Proof.
  intros Hkeep. induction calls as [|a calls IH]; intros w; simpl.
  - reflexivity.
  - rewrite IH. by apply construct_with_keeps.
Qed.

End facade.

(** The arguments of the call [__init__] makes are read off its behaviour
    under a superclass constructor that refuses any argument. *)
Lemma example_super_init_refuses self pos kw w :
  raised_by (example_super_init self pos kw w) = None → pos = [] ∧ kw = ∅.
Proof.
  unfold example_super_init. destruct (decide (pos = [] ∧ kw = ∅)); [done|].
  discriminate.
Qed.

Lemma super_call_without_arguments self a pos' kw' :
  (∀ super w, init_with super self a w = super self pos' kw' w) →
  pos' = [] ∧ kw' = ∅.
Proof.
  intros Hcall.
  apply (example_super_init_refuses self pos' kw' empty_world).
  rewrite <- Hcall. reflexivity.
Qed.

Lemma nothing_received v : ¬ received v [] ∅.
Proof.
  unfold received. rewrite map_to_list_empty. simpl.
  intros [H|H]; by apply not_elem_of_nil in H.
Qed.

(** *** Argument pass-through *)

(** C1, as the specification words it, fails: called with a channel and a
    token, [__init__] makes no call to the superclass constructor in which the
    two supplied values are found. *)
Lemma token_not_forwarded : ¬ forwards_arguments 1%positive example_args.
Proof.
  intros (pos' & kw' & Hcall & Hfwd).
  destruct (super_call_without_arguments _ _ _ _ Hcall) as [-> ->].
  apply Forall_inv in Hfwd. by apply nothing_received in Hfwd.
Qed.

(** C1, amended: for every combination of the nine arguments, [__init__]
    calls the superclass constructor on the instance with no positional and
    no keyword argument, and with those only; none of the supplied values is
    among what the superclass constructor receives. *)
Theorem init_calls_super_without_arguments (self : loc) (a : init_args) :
  (∀ super w, init_with super self a w = super self [] ∅ w) ∧
  (∀ pos' kw',
     (∀ super w, init_with super self a w = super self pos' kw' w) →
     pos' = [] ∧ kw' = ∅) ∧
  Forall (fun v => ¬ received v [] ∅) (values_of a).
Proof.
  split; [|split].
  - intros super w. apply init_with_super.
  - apply super_call_without_arguments.
  - apply Forall_forall. intros v _. apply nothing_received.
Qed.

Lemma init_calls_super_without_arguments_witness :
  (∀ super w,
     init_with super 1%positive example_args w = super 1%positive [] ∅ w) ∧
  ([] : list value) = [] ∧ (∅ : gmap string value) = ∅.
Proof.
  destruct (init_calls_super_without_arguments 1%positive example_args)
    as (Hcall & Honly & _).
  split; [exact Hcall|]. apply Honly. intros super w. reflexivity.
Defined.

(** *** Delegation *)

(** C2: for every call whose arguments bind to the signature, constructing
    [QiskitRuntimeService] ends exactly as constructing the superclass
    [FakeProviderForBackendV2] without arguments does, with the same instance
    in the same store; [__init__] itself is the superclass constructor
    called on the instance and adds nothing to the store. *)
Theorem construct_is_super_construct
    (super : method) (pos : list value) (kw : gmap string value)
    (a : init_args) (w : world) :
  bind_arguments pos kw = inr a →
  construct super pos kw w = construct_super super [] ∅ w ∧
  construct_with super a w = construct_super super [] ∅ w ∧
  ∀ self, init_with super self a w = super self [] ∅ w.
Proof.
  intros Hb. split; [|split].
  - rewrite (construct_bound super pos kw a w Hb). apply construct_with_super.
  - apply construct_with_super.
  - intros self. apply init_with_super.
Qed.

Lemma construct_is_super_construct_witness :
  construct example_super_init example_pos example_kw empty_world
    = construct_super example_super_init [] ∅ empty_world ∧
  construct_with example_super_init example_args empty_world
    = construct_super example_super_init [] ∅ empty_world ∧
  ∀ self, init_with example_super_init self example_args empty_world
            = example_super_init self [] ∅ empty_world.
Proof.
  apply (construct_is_super_construct example_super_init example_pos
           example_kw example_args empty_world).
  vm_compute. reflexivity.
Defined.

(** *** Exceptions *)

(** C3: the call without arguments binds every parameter to [None] without
    an exception, as does a call with any nine values; the superclass
    constructor is entered on the freshly allocated instance in the store
    the allocation left, and the construction raises exactly when that call
    raises, the same exception with the same store; when it returns, the
    construction returns the instance. *)
Theorem no_exception_of_its_own
    (super : method) (a : init_args) (w : world) :
  bind_arguments [] ∅ = inr default_args ∧
  bind_arguments (values_of a) ∅ = inr a ∧
  construct super [] ∅ w = construct_with super default_args w ∧
  construct_with super a w =
    match super (fresh (dom (heap w))) [] ∅ (world_of (new_object w)) with
    | Returned _ w1 => Returned (VRef (fresh (dom (heap w)))) w1
    | Raised e w1 => Raised e w1
    end ∧
  raised_by (construct_with super a w)
    = raised_by (super (fresh (dom (heap w))) [] ∅ (world_of (new_object w))) ∧
  ∀ self, raised_by (init_with super self a w) = raised_by (super self [] ∅ w).
Proof.
  split; [apply bind_arguments_none|].
  split; [apply bind_arguments_positional|].
  split; [apply construct_bound, bind_arguments_none|].
  split; [apply construct_with_outcome|].
  split; [|intros self; reflexivity].
  rewrite construct_with_outcome. destruct (super _ _ _ _); reflexivity.
Qed.

(** *** Independence of the arguments *)

(** C4: for any two assignments [a] and [b] of values to the nine
    parameters, credentials included, the two constructions end alike: the
    same instance in the same store, or the same exception; and so do any two
    calls that bind to [a] and to [b]. *)
Theorem construction_independent_of_arguments
    (super : method) (a b : init_args) (w : world) :
  construct_with super a w = construct_with super b w ∧
  construct super (values_of a) ∅ w = construct super (values_of b) ∅ w ∧
  ∀ pos1 kw1 pos2 kw2,
    bind_arguments pos1 kw1 = inr a →
    bind_arguments pos2 kw2 = inr b →
    construct super pos1 kw1 w = construct super pos2 kw2 w.
Proof.
  assert (∀ pos1 kw1 pos2 kw2,
            bind_arguments pos1 kw1 = inr a →
            bind_arguments pos2 kw2 = inr b →
            construct super pos1 kw1 w = construct super pos2 kw2 w) as Hcalls.
  { intros pos1 kw1 pos2 kw2 Ha Hb.
    rewrite (construct_bound super _ _ _ w Ha).
    rewrite (construct_bound super _ _ _ w Hb). reflexivity. }
  split; [reflexivity|]. split; [|exact Hcalls].
  apply Hcalls; apply bind_arguments_positional.
Qed.

Lemma construction_independent_of_arguments_witness :
  construct example_super_init example_pos example_kw empty_world
    = construct example_super_init [] ∅ empty_world.
Proof.
  apply (construction_independent_of_arguments example_super_init
           example_args default_args empty_world).
  - vm_compute. reflexivity.
  - vm_compute. reflexivity.
Defined.

(** *** Frame *)

(** C9: the body of [__init__] ends exactly as the superclass constructor
    called on the instance does, store included; it ends the same way
    whatever values the nine arguments have, so it neither checks nor
    rewrites them; and the store a construction leaves is the store that
    call leaves, started from the store with the new instance allocated. *)
Theorem init_effect_is_super_effect
    (super : method) (self : loc) (a : init_args) (w : world) :
  init_with super self a w = super self [] ∅ w ∧
  (∀ b, init_with super self b w = init_with super self a w) ∧
  world_of (construct_with super a w)
    = world_of (super (fresh (dom (heap w))) [] ∅ (world_of (new_object w))).
Proof.
  split; [|split].
  - apply init_with_super.
  - intros b. reflexivity.
  - apply world_of_construct_with.
Qed.

(** Once the class statement has run, [QiskitRuntimeService.global_service]
    is [None], and [__init__] itself never assigns it: under a superclass
    constructor that does not assign it, it is still [None] after any number
    of constructions with any arguments.  What a superclass constructor that
    does assign it leaves there is not the facade's doing, and is not
    settled by this module. *)
Theorem global_service_stays_None
    (super : method) (calls : list init_args) (w : world) :
  keeps_class_attr super "QiskitRuntimeService" "global_service" →
  class_attr (exec_module w) "QiskitRuntimeService" "global_service"
    = Some VNone ∧
  class_attr (construct_all super calls (exec_module w))
      "QiskitRuntimeService" "global_service"
    = Some VNone.
Proof.
  intros Hkeep.
  assert (class_attr (exec_module w) "QiskitRuntimeService" "global_service"
            = Some VNone) as H0.
  { unfold exec_module.
    rewrite (class_attr_declare_eq QiskitRuntimeService). reflexivity. }
  split; [exact H0|].
  rewrite (construct_all_keeps super _ _ calls Hkeep). exact H0.
Qed.

Lemma global_service_stays_None_witness :
  class_attr (exec_module empty_world) "QiskitRuntimeService" "global_service"
    = Some VNone ∧
  class_attr
      (construct_all example_super_init [example_args; default_args]
         (exec_module empty_world))
      "QiskitRuntimeService" "global_service"
    = Some VNone.
Proof.
  apply (global_service_stays_None example_super_init
           [example_args; default_args] empty_world).
  intros self w. reflexivity.
Defined.

End qiskit_runtime_service_spec.

(** ** The descriptors under the operations of the excerpt *)

Module descriptor_frame.
Import Py PyFacts fake_yorktown qiskit_runtime_service.
Import fake_yorktown_spec qiskit_runtime_service_spec.

(** Each class statement assigns each of its names once. *)
Lemma body_names_once file dn :
  NoDup (cls_body (FakeYorktownV2 file dn)).*1 ∧
  NoDup (cls_body (FakeYorktown file dn)).*1.
Proof. split; apply (bool_decide_unpack _); reflexivity. Qed.

(** What the class statements declare, by attribute name. *)
Lemma declared_values file dn :
  namespace_of (cls_body (FakeYorktownV2 file dn)) =
    {[ "dirname" := VStr (dn file);
       "conf_filename" := VStr "conf_yorktown.json";
       "props_filename" := VStr "props_yorktown.json";
       "backend_name" := VStr "ibm_yorktown" ]}.
Proof.
  apply map_eq. intros n.
  destruct (decide (n = "dirname")) as [->|?]; [reflexivity|].
  destruct (decide (n = "conf_filename")) as [->|?]; [reflexivity|].
  destruct (decide (n = "props_filename")) as [->|?]; [reflexivity|].
  destruct (decide (n = "backend_name")) as [->|?]; [reflexivity|].
  unfold namespace_of; simpl.
  rewrite !lookup_insert_ne by done.
  rewrite lookup_empty, lookup_singleton_ne by done. reflexivity.
Qed.

(** After the import, either descriptor class reads as declared. *)
Lemma imported_descriptor file dn w c n :
  c ∈ descriptor_classes →
  class_attr (fake_yorktown.exec_module file dn w) c n
    = namespace_of (cls_body (FakeYorktownV2 file dn)) !! n.
Proof.
  unfold descriptor_classes. intros Hc.
  apply elem_of_cons in Hc as [->|Hc]; [apply imported_FakeYorktownV2|].
  apply list_elem_of_singleton in Hc as ->. apply imported_FakeYorktown.
Qed.

(** C8: the descriptor data is fixed by the class statements and not
    mutated afterwards: each class body assigns each name once; after the
    import each of the four attributes of either class holds the declared
    value; and it still holds it after the import of the service module and
    any number of constructions of the service, whose superclass constructor
    (not part of the excerpt) is taken not to assign it. *)
Theorem descriptor_never_mutated
    (file : string) (dn : string → string) (super : method)
    (calls : list init_args) (w : world) (c n : string) :
  c ∈ descriptor_classes →
  n ∈ descriptor_attrs →
  keeps_class_attr super c n →
  NoDup (cls_body (FakeYorktownV2 file dn)).*1 ∧
  NoDup (cls_body (FakeYorktown file dn)).*1 ∧
  is_Some (namespace_of (cls_body (FakeYorktownV2 file dn)) !! n) ∧
  class_attr (fake_yorktown.exec_module file dn w) c n
    = namespace_of (cls_body (FakeYorktownV2 file dn)) !! n ∧
  class_attr
      (qiskit_runtime_service.exec_module
         (fake_yorktown.exec_module file dn w)) c n
    = namespace_of (cls_body (FakeYorktownV2 file dn)) !! n ∧
  class_attr
      (construct_all super calls
         (qiskit_runtime_service.exec_module
            (fake_yorktown.exec_module file dn w))) c n
    = namespace_of (cls_body (FakeYorktownV2 file dn)) !! n.
Proof.
  intros Hc Hn Hkeep.
  assert (class_attr
            (qiskit_runtime_service.exec_module
               (fake_yorktown.exec_module file dn w)) c n
          = namespace_of (cls_body (FakeYorktownV2 file dn)) !! n) as Hsvc.
  { unfold qiskit_runtime_service.exec_module.
    rewrite class_attr_declare_ne; [by apply imported_descriptor|].
    simpl. intros <-. unfold descriptor_classes in Hc.
    apply elem_of_cons in Hc as [Hc|Hc]; [discriminate|].
    apply list_elem_of_singleton in Hc. discriminate. }
  split; [apply body_names_once|]. split; [apply body_names_once|].
  split; [|split; [by apply imported_descriptor|split; [exact Hsvc|]]].
  - rewrite <- elem_of_dom.
    rewrite (namespace_dom file dn).
    by apply elem_of_list_to_set.
  - rewrite (construct_all_keeps super c n calls Hkeep). exact Hsvc.
Qed.

Lemma descriptor_never_mutated_witness :
  class_attr
    (construct_all example_super_init [example_args; default_args]
       (qiskit_runtime_service.exec_module
          (fake_yorktown.exec_module
             "/qiskit_ibm_runtime/fake_provider/backends/yorktown/fake_yorktown.py"
             (fun _ => "/qiskit_ibm_runtime/fake_provider/backends/yorktown")
             empty_world)))
    "FakeYorktown" "props_filename"
  = Some (VStr "props_yorktown.json").
Proof.
  destruct (descriptor_never_mutated
              "/qiskit_ibm_runtime/fake_provider/backends/yorktown/fake_yorktown.py"
              (fun _ => "/qiskit_ibm_runtime/fake_provider/backends/yorktown")
              example_super_init [example_args; default_args] empty_world
              "FakeYorktown" "props_filename")
    as (_ & _ & _ & _ & _ & ->).
  - unfold descriptor_classes. apply list_elem_of_further, list_elem_of_here.
  - unfold descriptor_attrs. do 2 apply list_elem_of_further. apply list_elem_of_here.
  - intros self w. reflexivity.
  - reflexivity.
Defined.

End descriptor_frame.

(** ** Calls of [QiskitRuntimeService]: binding, instances, sequences *)

Module qiskit_runtime_service_calls.
Import Py PyFacts qiskit_runtime_service qiskit_runtime_service_spec.

(** Positional and keyword arguments are interchangeable: whatever the nine
    values, giving the first [k] by position and the others by keyword binds
    every parameter to its value, for every [k]. *)
Theorem bind_mixed_call (k : nat) (a : init_args) :
  bind_arguments (mixed_pos k a) (mixed_kw k a) = inr a.
Proof.
  destruct a. unfold mixed_pos, mixed_kw.
  do 10 (destruct k as [|k]; [vm_compute; reflexivity|]).
  vm_compute. reflexivity.
Qed.

Lemma bind_malformed (pos : list value) (kw : gmap string value) :
  malformed pos kw → ∃ msg, bind_arguments pos kw = inl (TypeError msg).
Proof.
  intros Hm. unfold bind_arguments.
  destruct (decide (length parameters < length pos)) as [|Hlen]; [eauto|].
  destruct (decide (dom kw ⊆ list_to_set parameters)) as [Hdom|]; [|eauto].
  destruct (decide (Forall (λ p, kw !! p = None)
                           (take (length pos) parameters))) as [Hdup|]; [|eauto].
  exfalso. destruct Hm as [Hm|[(k & Hk & Hnot)|(i & p & Hp & Hi & Hk)]].
  - done.
  - apply Hnot. apply elem_of_dom in Hk. apply Hdom in Hk.
    by apply elem_of_list_to_set in Hk.
  - rewrite Forall_lookup in Hdup.
    assert (take (length pos) parameters !! i = Some p) as Ht.
    { by rewrite lookup_take_lt. }
    apply Hdup in Ht. rewrite Ht in Hk. by destruct Hk.
Qed.

(** A call that misses the signature (too many positional arguments, an
    unknown keyword, or a keyword for a parameter given by position) raises a
    [TypeError] whatever the superclass constructor is: that constructor is
    not entered, and the store is the one the allocation left. *)
Theorem malformed_call_raises_TypeError
    (pos : list value) (kw : gmap string value) (w : world) :
  malformed pos kw →
  ∃ msg, ∀ super,
    construct super pos kw w = Raised (TypeError msg) (world_of (new_object w)).
Proof.
  intros Hm. destruct (bind_malformed pos kw Hm) as [msg Hb].
  exists msg. intros super. by apply construct_unbound.
Qed.

Lemma malformed_call_raises_TypeError_witness :
  ∃ msg, ∀ super,
    construct super [] {["auth" := VStr "legacy"]} empty_world
      = Raised (TypeError msg) (world_of (new_object empty_world)).
Proof.
  apply (malformed_call_raises_TypeError [] {["auth" := VStr "legacy"]}
           empty_world).
  right. left. exists "auth". split.
  - rewrite lookup_singleton_eq. eauto.
  - apply (bool_decide_unpack _). vm_compute. exact I.
Defined.

(** A call with at most nine positional arguments, only keywords that name
    parameters, and no keyword for a parameter given by position, binds: a
    parameter within the positional arguments gets the value at its
    position, every other parameter its keyword value, or [None] when the
    call has no such keyword. *)
Theorem wellformed_call_binds (pos : list value) (kw : gmap string value) :
  (length pos ≤ length parameters)%nat →
  (∀ k, is_Some (kw !! k) → k ∈ parameters) →
  (∀ i p, parameters !! i = Some p → i < length pos → kw !! p = None) →
  ∃ a, bind_arguments pos kw = inr a ∧
       (∀ i, i < length pos → values_of a !! i = pos !! i) ∧
       (∀ i p, parameters !! i = Some p → (length pos ≤ i)%nat →
               values_of a !! i = Some (default VNone (kw !! p))).
Proof.
  intros Hlen Hknown Hdup. unfold bind_arguments.
  destruct (decide (length parameters < length pos)) as [|_]; [lia|].
  destruct (decide (dom kw ⊆ list_to_set parameters)) as [_|Hno].
  2:{ exfalso. apply Hno. intros k Hk. apply elem_of_list_to_set, Hknown.
      by apply elem_of_dom. }
  destruct (decide (Forall (λ p, kw !! p = None)
                           (take (length pos) parameters))) as [_|Hno].
  2:{ exfalso. apply Hno. apply Forall_lookup. intros i p Hi.
      apply lookup_take_Some in Hi as [Hi Hlt]. eauto. }
  eexists. split; [reflexivity|]. split.
  - intros i Hi. apply lookup_lt_is_Some in Hi as Hv. destruct Hv as [v Hv].
    simpl in Hlen.
    do 9 (destruct i as [|i]; [simpl in *; by rewrite Hv|]).
    exfalso. lia.
  - intros i p Hp Hi. apply lookup_ge_None in Hi.
    do 9 (destruct i as [|i];
          [simpl in *; rewrite Hi; by injection Hp as <-|]).
    discriminate.
Qed.

Lemma wellformed_call_binds_witness :
  ∃ a, bind_arguments example_pos example_kw = inr a ∧
       (∀ i, i < length example_pos → values_of a !! i = example_pos !! i) ∧
       (∀ i p, parameters !! i = Some p → (length example_pos ≤ i)%nat →
               values_of a !! i = Some (default VNone (example_kw !! p))).
Proof.
  apply (wellformed_call_binds example_pos example_kw).
  - simpl. lia.
  - intros k [v Hk]. unfold example_kw in Hk.
    apply lookup_singleton_Some in Hk as [<- _].
    apply (bool_decide_unpack _). vm_compute. exact I.
  - intros i p Hp Hi. simpl in Hi.
    destruct i as [|i]; [|lia]. injection Hp as <-.
    unfold example_kw. by apply lookup_singleton_ne.
Defined.

Section instances.
Variable super : method.

(** The store after a call, well-formed or not, holds the new instance and
    every object the superclass constructor was asked to keep. *)
Lemma construct_keeps_objects (pos : list value) (kw : gmap string value) w :
  keeps_objects super →
  {[fresh (dom (heap w))]} ∪ dom (heap w)
    ⊆ dom (heap (world_of (construct super pos kw w))).
Proof.
  intros Hk.
  assert ({[fresh (dom (heap w))]} ∪ dom (heap w)
          = dom (heap (world_of (new_object w)))) as ->.
  { simpl. by rewrite dom_insert_L. }
  destruct (bind_arguments pos kw) as [e|a] eqn:Hb.
  - by rewrite (construct_unbound super pos kw e w Hb).
  - rewrite (construct_bound super pos kw a w Hb), world_of_construct_with.
    apply Hk.
Qed.

Lemma construct_returned (pos : list value) (kw : gmap string value) w v w' :
  construct super pos kw w = Returned v w' → v = VRef (fresh (dom (heap w))).
Proof.
  intros Hc. destruct (bind_arguments pos kw) as [e|a] eqn:Hb.
  - by rewrite (construct_unbound super pos kw e w Hb) in Hc.
  - rewrite (construct_bound super pos kw a w Hb), construct_with_outcome in Hc.
    destruct (super _ _ _ _); congruence.
Qed.

End instances.

(** Two constructions in a row that both return, with any arguments, return
    two different instances, when the superclass constructor frees no
    object. *)
Theorem successive_instances_differ
    (super : method) (pos1 pos2 : list value) (kw1 kw2 : gmap string value)
    (w w1 w2 : world) (v1 v2 : value) :
  keeps_objects super →
  construct super pos1 kw1 w = Returned v1 w1 →
  construct super pos2 kw2 w1 = Returned v2 w2 →
  v1 ≠ v2.
Proof.
  intros Hk H1 H2.
  pose proof (construct_keeps_objects super pos1 kw1 w Hk) as Hin.
  rewrite H1 in Hin. simpl in Hin.
  apply construct_returned in H1 as ->.
  apply construct_returned in H2 as ->.
  intros [= Heq].
  apply (is_fresh (dom (heap w1))). rewrite <- Heq.
  apply Hin, elem_of_union_l, elem_of_singleton. reflexivity.
Qed.

Lemma example_keeps_objects : keeps_objects example_super_init.
Proof.
  intros self w. unfold example_super_init.
  destruct (decide _) as [_|Hno]; [|by destruct Hno].
  unfold mbind, M_bind, bind, new_object, setattr; simpl.
  rewrite dom_alter_L, dom_insert_L. apply union_subseteq_r.
Qed.

Lemma successive_instances_differ_witness :
  VRef 1%positive ≠ VRef 3%positive.
Proof.
  apply (successive_instances_differ example_super_init
           example_pos [] example_kw ∅
           empty_world
           (world_of (construct example_super_init example_pos example_kw
                        empty_world))
           (world_of (construct example_super_init [] ∅
                        (world_of (construct example_super_init example_pos
                                     example_kw empty_world))))).
  - apply example_keeps_objects.
  - vm_compute. reflexivity.
  - vm_compute. reflexivity.
Defined.

(** The store a sequence of constructions leaves depends on how many
    constructions there were, not on any of their arguments. *)
Theorem construct_all_counts_only
    (super : method) (xs ys : list init_args) (w : world) :
  length xs = length ys →
  construct_all super xs w = construct_all super ys w.
Proof.
  revert ys w. induction xs as [|x xs IH]; intros [|y ys] w Hl;
    try discriminate; simpl; [reflexivity|].
  apply IH. by injection Hl.
Qed.

Lemma construct_all_counts_only_witness :
  construct_all example_super_init [example_args; default_args] empty_world
  = construct_all example_super_init [default_args; default_args] empty_world.
Proof.
  apply (construct_all_counts_only example_super_init
           [example_args; default_args] [default_args; default_args]
           empty_world).
  reflexivity.
Defined.

End qiskit_runtime_service_calls.
